(** * PID-controlled servo emulator: the control core

    A shallow embedding of [tof_sensor.hpp], [pid_controller.hpp] and
    [servo.hpp].  Each C++ struct becomes a module holding a record and
    its member functions; a member function that mutates [*this] takes
    the object and returns the updated object, one [let] per assignment
    of the source, in the source's order.

    Numbers.  Every field and argument of the source is a [double].
    There are two embeddings.  In the first one a [double] is a rational
    number ([Q]) and the arithmetic is exact: every finite [double] is a
    rational, and the claims settled there are those that the code
    decides by storing, copying and comparing values, or that hold of
    the machine's results as well.  Equality of values is [==] ([Qeq])
    there; [=] is used where the source stores a value unchanged.  In the
    second one, the module [binary64], a [double] is a binary64 number
    and every operation is the IEEE 754 one, rounding to nearest even,
    with its infinities and NaN: the claims that rounding, underflow,
    overflow or NaN decide are settled there.

    Terminal input.  [input::get_double] blocks on the terminal until a
    line parses as a number and returns that number; here the number
    entered is an argument of the function that reads it.  Printing is
    left out: it changes no field. *)

From Stdlib Require Import String Ascii ZArith Uint63 Floats QArith Qabs Lqa Lia
  List.
Import ListNotations.

Open Scope Q_scope.

(** ** The arithmetic of [double] *)

Definition double : Set := Q.

(** [x < y], [x > y] and [x >= y] of the source, as tests. *)
Definition ltb (x y : double) : bool :=
  match x ?= y with Lt => true | _ => false end.

Definition gtb (x y : double) : bool := ltb y x.

Definition geb (x y : double) : bool := Qle_bool y x.

Infix "<?" := ltb (at level 70, no associativity) : Q_scope.
Infix ">?" := gtb (at level 70, no associativity) : Q_scope.
Infix ">=?" := geb (at level 70, no associativity) : Q_scope.

(** ** [struct tof_sensor] *)

Module tof_sensor.

Definition DEFAULT_MIN : double := 0.0.
Definition DEFAULT_MAX : double := 1023.0.

Record t : Set := mk {
  min : double;  (* Minimum sensor value. *)
  max : double;  (* Maximum sensor value. *)
  val : double   (* Input sensor value. *)
}.

(** [tof_sensor(void)]: the in-class initialisers. *)
Definition default : t := mk DEFAULT_MIN DEFAULT_MAX 0.

Definition set_min (s : t) (x : double) : t := mk x (max s) (val s).
Definition set_max (s : t) (x : double) : t := mk (min s) x (val s).
Definition set_val (s : t) (x : double) : t := mk (min s) (max s) x.

(** [init(sensor_min, sensor_max)] *)
Definition init (s : t) (sensor_min sensor_max : double) : t :=
  let s := set_min s (if sensor_min >=? 0 then sensor_min else 0) in
  let s := set_max s (if sensor_max >? sensor_min then sensor_max else 1023) in
  s.

(** [tof_sensor(sensor_min, sensor_max)]: the in-class initialisers,
    then [init]. *)
Definition new (sensor_min sensor_max : double) : t :=
  init default sensor_min sensor_max.

(** [check_sensor_value()] *)
Definition check_sensor_value (s : t) : t :=
  if val s <? min s then set_val s (min s)
  else if val s >? max s then set_val s (max s)
  else s.

(** [read_from_terminal()], [entered] being what [input::get_double]
    returns. *)
Definition read_from_terminal (s : t) (entered : double) : t :=
  let s := set_val s entered in
  check_sensor_value s.

(** [input_range()] *)
Definition input_range (s : t) : double := max s - min s.


End tof_sensor.

(** ** [struct pid_controller] *)

Module pid_controller.

Record t : Set := mk {
  target : double;      (* Desired output value. *)
  output : double;      (* Real output value. *)
  input : double;       (* Input value from sensor. *)
  kp : double;          (* Proportional constant. *)
  ki : double;          (* Integrate constant. *)
  kd : double;          (* Derivate constant. *)
  integrate : double;   (* Integral value. *)
  derivate : double;    (* Delta value. *)
  last_error : double;  (* Last measured error. *)
  output_min : double;  (* Minimum output value. *)
  output_max : double   (* Maximum output value. *)
}.

(** [pid_controller(void)]: every field starts at 0. *)
Definition default : t := mk 0 0 0 0 0 0 0 0 0 0 0.

Definition set_target (c : t) (x : double) : t :=
  mk x (output c) (input c) (kp c) (ki c) (kd c) (integrate c)
     (derivate c) (last_error c) (output_min c) (output_max c).
Definition set_output (c : t) (x : double) : t :=
  mk (target c) x (input c) (kp c) (ki c) (kd c) (integrate c)
     (derivate c) (last_error c) (output_min c) (output_max c).
Definition set_input (c : t) (x : double) : t :=
  mk (target c) (output c) x (kp c) (ki c) (kd c) (integrate c)
     (derivate c) (last_error c) (output_min c) (output_max c).
Definition set_kp (c : t) (x : double) : t :=
  mk (target c) (output c) (input c) x (ki c) (kd c) (integrate c)
     (derivate c) (last_error c) (output_min c) (output_max c).
Definition set_ki (c : t) (x : double) : t :=
  mk (target c) (output c) (input c) (kp c) x (kd c) (integrate c)
     (derivate c) (last_error c) (output_min c) (output_max c).
Definition set_kd (c : t) (x : double) : t :=
  mk (target c) (output c) (input c) (kp c) (ki c) x (integrate c)
     (derivate c) (last_error c) (output_min c) (output_max c).
Definition set_integrate (c : t) (x : double) : t :=
  mk (target c) (output c) (input c) (kp c) (ki c) (kd c) x
     (derivate c) (last_error c) (output_min c) (output_max c).
Definition set_derivate (c : t) (x : double) : t :=
  mk (target c) (output c) (input c) (kp c) (ki c) (kd c) (integrate c)
     x (last_error c) (output_min c) (output_max c).
Definition set_last_error (c : t) (x : double) : t :=
  mk (target c) (output c) (input c) (kp c) (ki c) (kd c) (integrate c)
     (derivate c) x (output_min c) (output_max c).
Definition set_output_min (c : t) (x : double) : t :=
  mk (target c) (output c) (input c) (kp c) (ki c) (kd c) (integrate c)
     (derivate c) (last_error c) x (output_max c).
Definition set_output_max (c : t) (x : double) : t :=
  mk (target c) (output c) (input c) (kp c) (ki c) (kd c) (integrate c)
     (derivate c) (last_error c) (output_min c) x.

(** [init(target, output_min, output_max, kp, ki, kd)] *)
Definition init (c : t) (target' output_min' output_max' kp' ki' kd' : double)
  : t :=
  let c := set_target c target' in
  let c := set_output_min c output_min' in
  let c := set_output_max c output_max' in
  let c := set_kp c kp' in
  let c := set_ki c ki' in
  let c := set_kd c kd' in
  c.

(** [pid_controller(target, output_min, output_max, kp, ki, kd)] *)
Definition new (target' output_min' output_max' kp' ki' kd' : double) : t :=
  init default target' output_min' output_max' kp' ki' kd'.

(** [check_output()] *)
Definition check_output (c : t) : t :=
  if output c <? output_min c then set_output c (output_min c)
  else if output c >? output_max c then set_output c (output_max c)
  else c.

(** [regulate(new_input)] *)
Definition regulate (c : t) (new_input : double) : t :=
  let error := target c - new_input in
  let c := set_input c new_input in
  let c := set_integrate c (integrate c + error) in
  let c := set_derivate c (error - last_error c) in
  let c := set_output c
             (target c + kp c * error + ki c * integrate c
              + kd c * derivate c) in
  let c := set_last_error c error in
  check_output c.

(** A finite sequence of [regulate] calls, first input first. *)
Definition regulate_all (c : t) (inputs : list double) : t :=
  fold_left regulate inputs c.

(** [n] calls of [regulate] with the same input. *)
Definition regulate_n (n : nat) (c : t) (new_input : double) : t :=
  Nat.iter n (fun c => regulate c new_input) c.

End pid_controller.

(** ** [struct servo] *)

Module servo.

Record t : Set := mk {
  pid : pid_controller.t;       (* PID controller for the servo angle. *)
  left_sensor : tof_sensor.t;   (* Left TOF sensor. *)
  right_sensor : tof_sensor.t   (* Right TOF sensor. *)
}.

(** The members as their default constructors leave them. *)
Definition default : t :=
  mk pid_controller.default tof_sensor.default tof_sensor.default.

Definition set_pid (s : t) (c : pid_controller.t) : t :=
  mk c (left_sensor s) (right_sensor s).
Definition set_left_sensor (s : t) (x : tof_sensor.t) : t :=
  mk (pid s) x (right_sensor s).
Definition set_right_sensor (s : t) (x : tof_sensor.t) : t :=
  mk (pid s) (left_sensor s) x.

(** [init(target_angle, angle_min, angle_max, input_min, input_max,
    kp, ki, kd)] *)
Definition init (s : t)
    (target_angle angle_min angle_max input_min input_max kp ki kd : double)
  : t :=
  let s := set_pid s (pid_controller.init (pid s) target_angle angle_min
                        angle_max kp ki kd) in
  let s := set_left_sensor s
             (tof_sensor.init (left_sensor s) input_min input_max) in
  let s := set_right_sensor s
             (tof_sensor.init (right_sensor s) input_min input_max) in
  s.

(** [servo(target_angle, ...)] *)
Definition new
    (target_angle angle_min angle_max input_min input_max kp ki kd : double)
  : t :=
  init default target_angle angle_min angle_max input_min input_max kp ki kd.

(** [target()] *)
Definition target (s : t) : double := pid_controller.target (pid s).

(** [output()] *)
Definition output (s : t) : double := pid_controller.output (pid s).

(** [input_range()] *)
Definition input_range (s : t) : double :=
  tof_sensor.input_range (left_sensor s).

(** [input_difference()] *)
Definition input_difference (s : t) : double :=
  tof_sensor.val (left_sensor s) - tof_sensor.val (right_sensor s).

(** [input_ratio()] *)
Definition input_ratio (s : t) : double :=
  let scaled_input := (input_difference s + input_range s) / 2.0 in
  scaled_input / input_range s.

(** [input_mapped()] *)
Definition input_mapped (s : t) : double :=
  input_ratio s * (target s * 2).

(** [run()], [left_entered] and [right_entered] being the two numbers
    read from the terminal, in that order. *)
Definition run (s : t) (left_entered right_entered : double) : t :=
  let s := set_left_sensor s
             (tof_sensor.read_from_terminal (left_sensor s) left_entered) in
  let s := set_right_sensor s
             (tof_sensor.read_from_terminal (right_sensor s) right_entered) in
  let s := set_pid s (pid_controller.regulate (pid s) (input_mapped s)) in
  s.

End servo.

(** ** Scenario A of the specification *)

(** Sensors window [0,1023], target 90, output bounds [0,180], gains
    1, 0.01 and 0.1: the defaults of [servo]'s constructor. *)
Definition scenario_A : servo.t := servo.new 90 0 180 0 1023 1 0.01 0.1.

(** The servo of scenario A once [run] has read 500 and 700 into the
    sensors, before it regulates. *)
Definition scenario_A_read : servo.t :=
  let s := scenario_A in
  let s := servo.set_left_sensor s
             (tof_sensor.read_from_terminal (servo.left_sensor s) 500) in
  let s := servo.set_right_sensor s
             (tof_sensor.read_from_terminal (servo.right_sensor s) 700) in
  s.

(** Its controller after the one [regulate] call of [run]. *)
Definition scenario_A_regulated : pid_controller.t :=
  pid_controller.regulate (servo.pid scenario_A_read)
    (servo.input_mapped scenario_A_read).

(** [x] is [v] up to [tol]. *)
Definition within (tol x v : Q) : Prop := Qabs (x - v) <= tol.

(** ** The same structs in the arithmetic of the machine

    The claims that hinge on rounding, underflow, overflow or NaN are
    settled on this second embedding, in which a [double] is a binary64
    number ([float]) and [+], [-], [*], [/], [<], [>] and [>=] are the
    IEEE 754 operations, each rounding to nearest even.  The functions
    are those of the modules above, assignment for assignment; only the
    type of the numbers differs. *)

Module binary64.

Local Open Scope float_scope.

(** [x > y] and [x >= y] of the source: false when either side is NaN. *)
Definition gtb (x y : float) : bool := y <? x.
Definition geb (x y : float) : bool := y <=? x.

Infix ">?" := gtb (at level 70, no associativity) : float_scope.
Infix ">=?" := geb (at level 70, no associativity) : float_scope.

Module tof_sensor.

Definition DEFAULT_MIN : float := 0.0.
Definition DEFAULT_MAX : float := 1023.0.

Record t : Set := mk {
  min : float;  (* Minimum sensor value. *)
  max : float;  (* Maximum sensor value. *)
  val : float   (* Input sensor value. *)
}.

(** [tof_sensor(void)] *)
Definition default : t := mk DEFAULT_MIN DEFAULT_MAX 0.

Definition set_min (s : t) (x : float) : t := mk x (max s) (val s).
Definition set_max (s : t) (x : float) : t := mk (min s) x (val s).
Definition set_val (s : t) (x : float) : t := mk (min s) (max s) x.

(** [init(sensor_min, sensor_max)] *)
Definition init (s : t) (sensor_min sensor_max : float) : t :=
  let s := set_min s (if sensor_min >=? 0 then sensor_min else 0) in
  let s := set_max s (if sensor_max >? sensor_min then sensor_max else 1023) in
  s.

(** [tof_sensor(sensor_min, sensor_max)] *)
Definition new (sensor_min sensor_max : float) : t :=
  init default sensor_min sensor_max.

(** [check_sensor_value()] *)
Definition check_sensor_value (s : t) : t :=
  if val s <? min s then set_val s (min s)
  else if val s >? max s then set_val s (max s)
  else s.

(** [read_from_terminal()], [entered] being what [input::get_double]
    returns. *)
Definition read_from_terminal (s : t) (entered : float) : t :=
  let s := set_val s entered in
  check_sensor_value s.

(** [input_range()] *)
Definition input_range (s : t) : float := max s - min s.

End tof_sensor.

Module pid_controller.

Record t : Set := mk {
  target : float;      (* Desired output value. *)
  output : float;      (* Real output value. *)
  input : float;       (* Input value from sensor. *)
  kp : float;          (* Proportional constant. *)
  ki : float;          (* Integrate constant. *)
  kd : float;          (* Derivate constant. *)
  integrate : float;   (* Integral value. *)
  derivate : float;    (* Delta value. *)
  last_error : float;  (* Last measured error. *)
  output_min : float;  (* Minimum output value. *)
  output_max : float   (* Maximum output value. *)
}.

(** [pid_controller(void)] *)
Definition default : t := mk 0 0 0 0 0 0 0 0 0 0 0.

Definition set_target (c : t) (x : float) : t :=
  mk x (output c) (input c) (kp c) (ki c) (kd c) (integrate c)
     (derivate c) (last_error c) (output_min c) (output_max c).
Definition set_output (c : t) (x : float) : t :=
  mk (target c) x (input c) (kp c) (ki c) (kd c) (integrate c)
     (derivate c) (last_error c) (output_min c) (output_max c).
Definition set_input (c : t) (x : float) : t :=
  mk (target c) (output c) x (kp c) (ki c) (kd c) (integrate c)
     (derivate c) (last_error c) (output_min c) (output_max c).
Definition set_kp (c : t) (x : float) : t :=
  mk (target c) (output c) (input c) x (ki c) (kd c) (integrate c)
     (derivate c) (last_error c) (output_min c) (output_max c).
Definition set_ki (c : t) (x : float) : t :=
  mk (target c) (output c) (input c) (kp c) x (kd c) (integrate c)
     (derivate c) (last_error c) (output_min c) (output_max c).
Definition set_kd (c : t) (x : float) : t :=
  mk (target c) (output c) (input c) (kp c) (ki c) x (integrate c)
     (derivate c) (last_error c) (output_min c) (output_max c).
Definition set_integrate (c : t) (x : float) : t :=
  mk (target c) (output c) (input c) (kp c) (ki c) (kd c) x
     (derivate c) (last_error c) (output_min c) (output_max c).
Definition set_derivate (c : t) (x : float) : t :=
  mk (target c) (output c) (input c) (kp c) (ki c) (kd c) (integrate c)
     x (last_error c) (output_min c) (output_max c).
Definition set_last_error (c : t) (x : float) : t :=
  mk (target c) (output c) (input c) (kp c) (ki c) (kd c) (integrate c)
     (derivate c) x (output_min c) (output_max c).
Definition set_output_min (c : t) (x : float) : t :=
  mk (target c) (output c) (input c) (kp c) (ki c) (kd c) (integrate c)
     (derivate c) (last_error c) x (output_max c).
Definition set_output_max (c : t) (x : float) : t :=
  mk (target c) (output c) (input c) (kp c) (ki c) (kd c) (integrate c)
     (derivate c) (last_error c) (output_min c) x.

(** [init(target, output_min, output_max, kp, ki, kd)] *)
Definition init (c : t) (target' output_min' output_max' kp' ki' kd' : float)
  : t :=
  let c := set_target c target' in
  let c := set_output_min c output_min' in
  let c := set_output_max c output_max' in
  let c := set_kp c kp' in
  let c := set_ki c ki' in
  let c := set_kd c kd' in
  c.

(** [pid_controller(target, output_min, output_max, kp, ki, kd)] *)
Definition new (target' output_min' output_max' kp' ki' kd' : float) : t :=
  init default target' output_min' output_max' kp' ki' kd'.

(** [check_output()] *)
Definition check_output (c : t) : t :=
  if output c <? output_min c then set_output c (output_min c)
  else if output c >? output_max c then set_output c (output_max c)
  else c.

(** [regulate(new_input)] *)
Definition regulate (c : t) (new_input : float) : t :=
  let error := target c - new_input in
  let c := set_input c new_input in
  let c := set_integrate c (integrate c + error) in
  let c := set_derivate c (error - last_error c) in
  let c := set_output c
             (target c + kp c * error + ki c * integrate c
              + kd c * derivate c) in
  let c := set_last_error c error in
  check_output c.

(** A finite sequence of [regulate] calls, first input first. *)
Definition regulate_all (c : t) (inputs : list float) : t :=
  fold_left regulate inputs c.

End pid_controller.

Module servo.

Record t : Set := mk {
  pid : pid_controller.t;       (* PID controller for the servo angle. *)
  left_sensor : tof_sensor.t;   (* Left TOF sensor. *)
  right_sensor : tof_sensor.t   (* Right TOF sensor. *)
}.

Definition default : t :=
  mk pid_controller.default tof_sensor.default tof_sensor.default.

Definition set_pid (s : t) (c : pid_controller.t) : t :=
  mk c (left_sensor s) (right_sensor s).
Definition set_left_sensor (s : t) (x : tof_sensor.t) : t :=
  mk (pid s) x (right_sensor s).
Definition set_right_sensor (s : t) (x : tof_sensor.t) : t :=
  mk (pid s) (left_sensor s) x.

(** [init(target_angle, angle_min, angle_max, input_min, input_max,
    kp, ki, kd)] *)
Definition init (s : t)
    (target_angle angle_min angle_max input_min input_max kp ki kd : float)
  : t :=
  let s := set_pid s (pid_controller.init (pid s) target_angle angle_min
                        angle_max kp ki kd) in
  let s := set_left_sensor s
             (tof_sensor.init (left_sensor s) input_min input_max) in
  let s := set_right_sensor s
             (tof_sensor.init (right_sensor s) input_min input_max) in
  s.

(** [servo(target_angle, ...)] *)
Definition new
    (target_angle angle_min angle_max input_min input_max kp ki kd : float)
  : t :=
  init default target_angle angle_min angle_max input_min input_max kp ki kd.

(** [target()] *)
Definition target (s : t) : float := pid_controller.target (pid s).

(** [output()] *)
Definition output (s : t) : float := pid_controller.output (pid s).

(** [input_range()] *)
Definition input_range (s : t) : float :=
  tof_sensor.input_range (left_sensor s).

(** [input_difference()] *)
Definition input_difference (s : t) : float :=
  tof_sensor.val (left_sensor s) - tof_sensor.val (right_sensor s).

(** [input_ratio()] *)
Definition input_ratio (s : t) : float :=
  let scaled_input := (input_difference s + input_range s) / 2.0 in
  scaled_input / input_range s.

(** [input_mapped()] *)
Definition input_mapped (s : t) : float :=
  input_ratio s * (target s * 2).

(** [run()], [left_entered] and [right_entered] being the two numbers
    read from the terminal, in that order. *)
Definition run (s : t) (left_entered right_entered : float) : t :=
  let s := set_left_sensor s
             (tof_sensor.read_from_terminal (left_sensor s) left_entered) in
  let s := set_right_sensor s
             (tof_sensor.read_from_terminal (right_sensor s) right_entered) in
  let s := set_pid s (pid_controller.regulate (pid s) (input_mapped s)) in
  s.

End servo.


End binary64.

(** ** Checking a property on a range of integers

    [all_from n z p] tests [p] on the [n] integers [z], [z + 1], ... *)





(** ** The constants 2 and 1/2 of [input_ratio] and [input_mapped]

    As the specification of binary64 (the library's [SpecFloat]) writes
    them: a mantissa of 53 bits and an exponent. *)

Definition SF_two : spec_float := S754_finite false 4503599627370496 (-51).
Definition SF_half : spec_float := S754_finite false 4503599627370496 (-53).

(** ** The streams the source writes to and reads from

    What the source uses of [<iostream>] and [<iomanip>].  An output
    stream keeps the two format settings the source touches, whether
    [std::fixed] is on and the precision, and what was written to it, in
    order.  A [double] written is kept as the number with the format
    settings in force when it was written, not as digits.  Both settings
    stay on the stream once set, as they do in C++. *)

Module iostream.

Inductive item : Set :=
| text (s : string)
| number (fixed : bool) (precision : Z) (x : double).

Record ostream : Set := mk {
  fixed : bool;
  precision : Z;
  written : list item
}.

(** A stream nothing was done to: not fixed, precision 6. *)
Definition untouched : ostream := mk false 6 [].

(** A [std::ostream&]: [std::cout] or some other stream. *)
Inductive ref : Set :=
| cout
| other (n : nat).

Record streams : Set := mk_streams {
  std_cout : ostream;
  others : nat -> ostream
}.

Definition get (w : streams) (r : ref) : ostream :=
  match r with
  | cout => std_cout w
  | other n => others w n
  end.

Definition set (w : streams) (r : ref) (o : ostream) : streams :=
  match r with
  | cout => mk_streams o (others w)
  | other n =>
      mk_streams (std_cout w) (fun m => if Nat.eqb m n then o else others w m)
  end.

(** [ostream << std::fixed] *)
Definition put_fixed (r : ref) (w : streams) : streams :=
  let o := get w r in set w r (mk true (precision o) (written o)).

(** [ostream << std::setprecision(n)] *)
Definition put_setprecision (r : ref) (n : Z) (w : streams) : streams :=
  let o := get w r in set w r (mk (fixed o) n (written o)).

(** [ostream << "..."] *)
Definition put_text (r : ref) (s : string) (w : streams) : streams :=
  let o := get w r in
  set w r (mk (fixed o) (precision o) (written o ++ [text s])).

(** [ostream << x] for a [double] *)
Definition put_double (r : ref) (x : double) (w : streams) : streams :=
  let o := get w r in
  set w r (mk (fixed o) (precision o)
             (written o ++ [number (fixed o) (precision o) x])).

(** The characters the source writes as [\n] and [\t]. *)
Definition nl : string := String (ascii_of_nat 10) EmptyString.
Definition tab : string := String (ascii_of_nat 9) EmptyString.

(** The line of 80 dashes of the two [print] functions. *)
Definition dashes : string :=
  "--------------------------------------------------------------------------------".

(** The numbers written to a stream, in order. *)
Definition numbers (o : ostream) : list item :=
  filter (fun i => match i with number _ _ _ => true | text _ => false end)
    (written o).

End iostream.

(** ** [namespace input]

    [std::stod] is the library's: it is a parameter here, with the three
    ways a call of it ends.  The terminal is the list of the lines it
    will deliver; a call that needs a line when none is left has not
    returned ([no_more_input]). *)

Module input.

Inductive stod_result : Set :=
| stod_value (x : double)
| stod_invalid_argument
| stod_out_of_range.

(** How a call that reads the terminal ends: it returns a value, or an
    exception the source does not catch leaves it, or the lines ran out.
    Each time with the lines not yet read and the streams as they are. *)
Inductive outcome (A : Type) : Type :=
| returned (a : A) (lines : list string) (w : iostream.streams)
| thrown_out_of_range (lines : list string) (w : iostream.streams)
| no_more_input (w : iostream.streams).

Arguments returned {A} a lines w.
Arguments thrown_out_of_range {A} lines w.
Arguments no_more_input {A} w.

(** Sequencing: the rest runs when the call returned. *)
Definition bind {A B : Type} (m : outcome A)
    (k : A -> list string -> iostream.streams -> outcome B) : outcome B :=
  match m with
  | returned a lines w => k a lines w
  | thrown_out_of_range lines w => thrown_out_of_range lines w
  | no_more_input w => no_more_input w
  end.

(** [readline(s, space)]: the line read, the lines left, and [space]
    written to [std::cout] when it is not null. *)
Definition readline (space : option string)
    (lines : list string) (w : iostream.streams) : outcome string :=
  match lines with
  | [] => no_more_input w
  | s :: lines =>
      returned s lines
        match space with
        | Some space => iostream.put_text iostream.cout space w
        | None => w
        end
  end.

(** The loop [for (auto& i : s) if (i == ',') i = '.';] of [get_double]. *)
Fixpoint commas_to_dots (s : string) : string :=
  match s with
  | EmptyString => EmptyString
  | String i s =>
      String (if Ascii.eqb i "," then "."%char else i) (commas_to_dots s)
  end.

Definition invalid_argument_message : string :=
  "Invalid argument, try again!" ++ iostream.nl ++ iostream.nl.

(** [get_double()]: one turn of the [while (1)] loop per line. *)
Fixpoint get_double (stod : string -> stod_result)
    (lines : list string) (w : iostream.streams) : outcome double :=
  match lines with
  | [] => no_more_input w
  | s :: lines =>
      let w := iostream.put_text iostream.cout iostream.nl w in
      let s := commas_to_dots s in
      match stod s with
      | stod_value x => returned x lines w
      | stod_invalid_argument =>
          get_double stod lines
            (iostream.put_text iostream.cout invalid_argument_message w)
      | stod_out_of_range => thrown_out_of_range lines w
      end
  end.

End input.

(** ** The member functions that print or read the terminal *)

(** [pid_controller::print(ostream, num_decimals)] *)
Definition pid_controller_print (ostream : iostream.ref) (num_decimals : Z)
    (c : pid_controller.t) (w : iostream.streams) : iostream.streams :=
  let w := iostream.put_fixed ostream w in
  let w := iostream.put_setprecision ostream num_decimals w in
  let w := iostream.put_text ostream (iostream.dashes ++ iostream.nl) w in
  let w := iostream.put_text ostream
             ("Target:" ++ iostream.tab ++ iostream.tab) w in
  let w := iostream.put_double ostream (pid_controller.target c) w in
  let w := iostream.put_text ostream iostream.nl w in
  let w := iostream.put_text ostream
             ("Input:" ++ iostream.tab ++ iostream.tab) w in
  let w := iostream.put_double ostream (pid_controller.input c) w in
  let w := iostream.put_text ostream iostream.nl w in
  let w := iostream.put_text ostream
             ("Output:" ++ iostream.tab ++ iostream.tab) w in
  let w := iostream.put_double ostream (pid_controller.output c) w in
  let w := iostream.put_text ostream iostream.nl w in
  let w := iostream.put_text ostream ("Last error:" ++ iostream.tab) w in
  let w := iostream.put_double ostream (pid_controller.last_error c) w in
  let w := iostream.put_text ostream iostream.nl w in
  let w := iostream.put_text ostream
             (iostream.dashes ++ iostream.nl ++ iostream.nl) w in
  w.

(** [servo::print_relative_angle(ostream, num_decimals)] *)
Definition servo_print_relative_angle (ostream : iostream.ref)
    (num_decimals : Z) (s : servo.t) (w : iostream.streams)
  : iostream.streams :=
  let w := iostream.put_fixed ostream w in
  let w := iostream.put_setprecision ostream num_decimals w in
  if servo.output s <? servo.target s then
    let w := iostream.put_text ostream "The servo is angled " w in
    let w := iostream.put_double ostream (servo.target s - servo.output s) w in
    let w := iostream.put_text ostream
               (" degrees to the left of target!" ++ iostream.nl) w in
    w
  else if servo.output s >? servo.target s then
    let w := iostream.put_text ostream "The servo is angled " w in
    let w := iostream.put_double ostream (servo.output s - servo.target s) w in
    let w := iostream.put_text ostream
               (" degrees to the right of target!" ++ iostream.nl) w in
    w
  else
    iostream.put_text ostream
      ("The servo is angled right at target!" ++ iostream.nl) w.

(** [servo::print(ostream, num_decimals)].  The source calls
    [print_relative_angle()] without arguments: its defaults are
    [std::cout] and one decimal. *)
Definition servo_print (ostream : iostream.ref) (num_decimals : Z)
    (s : servo.t) (w : iostream.streams) : iostream.streams :=
  let w := iostream.put_fixed ostream w in
  let w := iostream.put_setprecision ostream num_decimals w in
  let w := iostream.put_text ostream (iostream.dashes ++ iostream.nl) w in
  let w := iostream.put_text ostream
             ("Target servo angle:" ++ iostream.tab ++ iostream.tab) w in
  let w := iostream.put_double ostream (servo.target s) w in
  let w := iostream.put_text ostream iostream.nl w in
  let w := iostream.put_text ostream
             ("Mapped input value:" ++ iostream.tab ++ iostream.tab) w in
  let w := iostream.put_double ostream (servo.input_mapped s) w in
  let w := iostream.put_text ostream iostream.nl w in
  let w := iostream.put_text ostream
             ("Current servo angle:" ++ iostream.tab ++ iostream.tab) w in
  let w := iostream.put_double ostream (servo.output s) w in
  let w := iostream.put_text ostream (iostream.nl ++ iostream.nl) w in
  let w := servo_print_relative_angle iostream.cout 1 s w in
  let w := iostream.put_text ostream
             (iostream.dashes ++ iostream.nl ++ iostream.nl) w in
  w.

(** [tof_sensor::read_from_terminal()] with [input::get_double] reading
    the terminal: the value it returns is stored and checked. *)
Definition tof_sensor_read_from_terminal (stod : string -> input.stod_result)
    (s : tof_sensor.t) (lines : list string) (w : iostream.streams)
  : input.outcome tof_sensor.t :=
  input.bind (input.get_double stod lines w) (fun entered lines w =>
  input.returned (tof_sensor.read_from_terminal s entered) lines w).

(** [servo::run()] with the terminal and the printing. *)
Definition servo_run (stod : string -> input.stod_result)
    (s : servo.t) (lines : list string) (w : iostream.streams)
  : input.outcome servo.t :=
  let w := iostream.put_text iostream.cout
             ("Enter input for left sensor:" ++ iostream.nl) w in
  input.bind (tof_sensor_read_from_terminal stod (servo.left_sensor s) lines w)
    (fun left lines w =>
  let s := servo.set_left_sensor s left in
  let w := iostream.put_text iostream.cout
             ("Enter input for right sensor:" ++ iostream.nl) w in
  input.bind (tof_sensor_read_from_terminal stod (servo.right_sensor s) lines w)
    (fun right lines w =>
  let s := servo.set_right_sensor s right in
  let s := servo.set_pid s
             (pid_controller.regulate (servo.pid s) (servo.input_mapped s)) in
  let w := servo_print iostream.cout 1 s w in
  input.returned s lines w)).

(** ** The tests of the source decide the order of the rationals *)

Lemma ltb_lt (x y : double) : (x <? y) = true <-> x < y.
Proof.
  unfold ltb. rewrite Qlt_alt. destruct (x ?= y); intuition discriminate.
Qed.

Lemma ltb_ge (x y : double) : (x <? y) = false <-> y <= x.
Proof.
  rewrite <- Qle_bool_iff, <- Bool.not_true_iff_false, ltb_lt, Qle_bool_iff.
  split; [apply Qnot_lt_le | apply Qle_not_lt].
Qed.

Lemma gtb_gt (x y : double) : (x >? y) = true <-> y < x.
Proof. apply ltb_lt. Qed.

Lemma gtb_le (x y : double) : (x >? y) = false <-> x <= y.
Proof. apply ltb_ge. Qed.

Lemma geb_ge (x y : double) : (x >=? y) = true <-> y <= x.
Proof. apply Qle_bool_iff. Qed.

Lemma geb_lt (x y : double) : (x >=? y) = false <-> x < y.
Proof.
  unfold geb. rewrite <- Bool.not_true_iff_false, Qle_bool_iff.
  split; [apply Qnot_le_lt | apply Qlt_not_le].
Qed.

(** Case analysis on a test of the source, keeping what it decided. *)
Ltac case_test b :=
  let E := fresh "E" in
  destruct b eqn:E;
  [ first [ apply ltb_lt in E | apply gtb_gt in E | apply geb_ge in E ]
  | first [ apply ltb_ge in E | apply gtb_le in E | apply geb_lt in E ] ].

(** The same on the first test the goal branches on. *)
Ltac case_first_test :=
  match goal with |- context [if ?b then _ else _] => case_test b end.

(** ** [pid_controller]: clamping and the frame of [regulate] *)

Section Check_output.

Import pid_controller.

Variable c : pid_controller.t.




(** [check_output] writes no field but [output]. *)
Lemma check_output_frame :
  let c' := check_output c in
  target c' = target c /\ input c' = input c /\ kp c' = kp c /\
  ki c' = ki c /\ kd c' = kd c /\ integrate c' = integrate c /\
  derivate c' = derivate c /\ last_error c' = last_error c /\
  output_min c' = output_min c /\ output_max c' = output_max c.
Proof.
  unfold check_output.
  destruct (output c <? output_min c); [|destruct (output c >? output_max c)];
    cbn; repeat split.
Qed.

End Check_output.

Section Regulate.

Import pid_controller.

(** [regulate] keeps the six parameters. *)
Lemma regulate_parameters (c : pid_controller.t) (x : double) :
  let c' := regulate c x in
  target c' = target c /\ kp c' = kp c /\ ki c' = ki c /\ kd c' = kd c /\
  output_min c' = output_min c /\ output_max c' = output_max c.
Proof.
  unfold regulate. cbv zeta.
  match goal with |- context [check_output ?d] =>
    destruct (check_output_frame d) as (T & _ & P & I & D & _ & _ & _ & L & H)
  end.
  cbv zeta in *. rewrite T, P, I, D, L, H. cbn. repeat split.
Qed.

End Regulate.

(** ** The PID controller *)

(** Closed comparisons of rationals, by evaluation. *)
Ltac by_evaluation :=
  lazymatch goal with
  | |- _ <= _ => apply Qle_bool_iff; vm_compute; reflexivity
  | |- _ < _ => apply ltb_lt; vm_compute; reflexivity
  | |- _ == _ => apply Qeq_bool_iff; vm_compute; reflexivity
  | |- _ = _ => vm_compute; reflexivity
  end.


(** C9.  [init] sets the six parameters it is given and leaves the
    integral, the last error, the output, the stored input (and the
    stored derivative) as they were: configuring a controller again does
    not reset its history. *)
Theorem init_preserves_history
    (c : pid_controller.t)
    (target output_min output_max kp ki kd : double) :
  let c' := pid_controller.init c target output_min output_max kp ki kd in
  pid_controller.target c' = target /\
  pid_controller.output_min c' = output_min /\
  pid_controller.output_max c' = output_max /\
  pid_controller.kp c' = kp /\
  pid_controller.ki c' = ki /\
  pid_controller.kd c' = kd /\
  pid_controller.integrate c' = pid_controller.integrate c /\
  pid_controller.last_error c' = pid_controller.last_error c /\
  pid_controller.output c' = pid_controller.output c /\
  pid_controller.input c' = pid_controller.input c /\
  pid_controller.derivate c' = pid_controller.derivate c.
Proof. cbn. repeat split. Qed.

(** *** The steady state at the target *)

Section Steady_state.

Import pid_controller.

(** A call with the target as input, from zero integral and zero last
    error, leaves both at zero and puts the output on the target. *)
Lemma regulate_at_target (c : pid_controller.t) :
  integrate c == 0 -> last_error c == 0 ->
  output_min c <= target c -> target c <= output_max c ->
  let c' := regulate c (target c) in
  last_error c' == 0 /\ integrate c' == 0 /\ derivate c' == 0 /\
  output c' == target c /\ input c' = target c.
Proof.
  intros I L Lo Hi.
  assert (U : target c + kp c * (target c - target c)
              + ki c * (integrate c + (target c - target c))
              + kd c * (target c - target c - last_error c) == target c)
    by (rewrite I, L; ring).
  unfold regulate, check_output. cbn.
  case_first_test; [lra|].
  case_first_test; [lra|].
  cbn. rewrite I, L. repeat split; ring.
Qed.

Lemma regulate_n_at_target (n : nat) (c : pid_controller.t) :
  integrate c == 0 -> last_error c == 0 ->
  output_min c <= target c -> target c <= output_max c ->
  let c' := regulate_n n c (target c) in
  integrate c' == 0 /\ last_error c' == 0 /\ target c' = target c /\
  output_min c' = output_min c /\ output_max c' = output_max c.
Proof.
  intros I L Lo Hi. induction n as [|n IH].
  - cbn. repeat split; assumption.
  - cbv zeta in *.
    change (regulate_n (S n) c (target c))
      with (regulate (regulate_n n c (target c)) (target c)).
    set (b := regulate_n n c (target c)) in *.
    destruct IH as (I' & L' & T & Lo' & Hi').
    assert (Lo2 : output_min b <= target b) by (rewrite Lo', T; exact Lo).
    assert (Hi2 : target b <= output_max b) by (rewrite Hi', T; exact Hi).
    destruct (regulate_at_target b I' L' Lo2 Hi2) as (L2 & I2 & _).
    destruct (regulate_parameters b (target c)) as (T1 & _ & _ & _ & Lo1 & Hi1).
    cbv zeta in *. rewrite T in L2, I2. rewrite T1, Lo1, Hi1.
    repeat split; assumption.
Qed.

End Steady_state.

(** C7.  A controller fresh from its constructor, with the target
    between the output bounds, is called [n + 1] times with the target as
    input.  After the last of these calls (so after each call, [n] being
    any number) the error of the call, kept in [last_error], is 0, the
    integral is 0, the derivative is 0, and the output is the target. *)
Theorem zero_error_steady_state
    (target output_min output_max kp ki kd : double) (n : nat) :
  output_min <= target -> target <= output_max ->
  let c := pid_controller.regulate_n (S n)
             (pid_controller.new target output_min output_max kp ki kd)
             target in
  pid_controller.last_error c == 0 /\
  pid_controller.integrate c == 0 /\
  pid_controller.derivate c == 0 /\
  pid_controller.output c == target /\
  pid_controller.input c = target.
Proof.
  intros Lo Hi. cbn zeta.
  set (fresh := pid_controller.new target output_min output_max kp ki kd).
  change (pid_controller.regulate_n (S n) fresh target)
    with (pid_controller.regulate
            (pid_controller.regulate_n n fresh (pid_controller.target fresh))
            target).
  destruct (regulate_n_at_target n fresh) as (I & L & T & Lo' & Hi');
    try reflexivity; try assumption.
  cbv zeta in *.
  set (b := pid_controller.regulate_n n fresh (pid_controller.target fresh)) in *.
  assert (Tb : pid_controller.target b = target) by exact T.
  assert (Lo2 : pid_controller.output_min b <= pid_controller.target b)
    by (rewrite Lo', Tb; exact Lo).
  assert (Hi2 : pid_controller.target b <= pid_controller.output_max b)
    by (rewrite Hi', Tb; exact Hi).
  pose proof (regulate_at_target b I L Lo2 Hi2) as R.
  cbv zeta in R. rewrite Tb in R. exact R.
Qed.

(** Target 90 within [0,180], default gains, four calls. *)
Lemma zero_error_steady_state_witness :
  let c := pid_controller.regulate_n 4
             (pid_controller.new 90 0 180 1 0.01 0.1) 90 in
  (0 <= 90 /\ 90 <= 180) /\
  pid_controller.last_error c == 0 /\
  pid_controller.integrate c == 0 /\
  pid_controller.derivate c == 0 /\
  pid_controller.output c == 90 /\
  pid_controller.input c = 90.
Proof.
  assert (Lo : 0 <= 90) by by_evaluation.
  assert (Hi : 90 <= 180) by by_evaluation.
  split; [split; assumption|].
  exact (zero_error_steady_state 90 0 180 1 0.01 0.1 3 Lo Hi).
Defined.

(** ** The sensor *)

Section Sensor.

Import tof_sensor.



End Sensor.

(** C6.  [init] sets the window so: the stored minimum is [sensor_min]
    when [sensor_min >= 0] and 0 otherwise; the stored maximum is
    [sensor_max] when [sensor_max > sensor_min], the argument as the
    caller gave it, and 1023 otherwise.  So [init(-5, 10)] gives the
    window [0, 10]. *)
Theorem init_window (s : tof_sensor.t) (sensor_min sensor_max : double) :
  let s' := tof_sensor.init s sensor_min sensor_max in
  (0 <= sensor_min -> tof_sensor.min s' = sensor_min) /\
  (sensor_min < 0 -> tof_sensor.min s' = 0) /\
  (sensor_min < sensor_max -> tof_sensor.max s' = sensor_max) /\
  (sensor_max <= sensor_min -> tof_sensor.max s' = 1023) /\
  tof_sensor.min (tof_sensor.init s (-5) 10) = 0 /\
  tof_sensor.max (tof_sensor.init s (-5) 10) = 10.
Proof.
  cbn. repeat split; intros H.
  - apply geb_ge in H. now rewrite H.
  - apply geb_lt in H. now rewrite H.
  - apply gtb_gt in H. now rewrite H.
  - apply gtb_le in H. now rewrite H.
Qed.

(** C10.  For [sensor_min < 0] and [sensor_min < sensor_max < 0], [init]
    stores the minimum 0 and the maximum [sensor_max]: the window it
    leaves has its maximum below its minimum. *)
Theorem init_inverted_window
    (s : tof_sensor.t) (sensor_min sensor_max : double) :
  sensor_min < 0 -> sensor_min < sensor_max -> sensor_max < 0 ->
  let s' := tof_sensor.init s sensor_min sensor_max in
  tof_sensor.min s' = 0 /\ tof_sensor.max s' = sensor_max /\
  tof_sensor.max s' < tof_sensor.min s'.
Proof.
  intros N O M. cbn.
  apply geb_lt in N. apply gtb_gt in O. rewrite N, O.
  repeat split. exact M.
Qed.

(** [init(-5, -3)] on a sensor fresh from its default constructor. *)
Lemma init_inverted_window_witness :
  let s' := tof_sensor.init tof_sensor.default (-5) (-3) in
  (-5 < 0 /\ -5 < -3 /\ -3 < 0) /\
  tof_sensor.min s' = 0 /\ tof_sensor.max s' = -3 /\
  tof_sensor.max s' < tof_sensor.min s'.
Proof.
  assert (N : -5 < 0) by by_evaluation.
  assert (O : -5 < -3) by by_evaluation.
  assert (M : -3 < 0) by by_evaluation.
  split; [repeat split; assumption|].
  exact (init_inverted_window tof_sensor.default (-5) (-3) N O M).
Defined.




(** ** The servo *)

(** *** Scenario A: left 500, right 700 *)

Ltac by_evaluation_within :=
  lazymatch goal with
  | |- within _ _ _ => unfold within; by_evaluation
  | |- ~ within _ _ _ =>
      let H := fresh in
      unfold within; intros H; apply Qle_bool_iff in H;
      vm_compute in H; discriminate H
  | |- _ => by_evaluation
  end.

(** C4, with the values the source computes.  In scenario A the sensors
    hold 500 and 700; the difference is -200 and the range 1023; the
    ratio is 823/2046, 0.4022 to four decimals; the mapped input is
    24690/341, 72.40 to two decimals.  The one [regulate] call of [run]
    on the mapped input gives the error 6000/341 (17.60), the same
    integral and derivative, and the output 37350/341 (109.53), which is
    the unclamped sum [90 + 1*error + 0.01*error + 0.1*error], within
    [0,180].  A value "to k decimals" is within half a unit of the k-th
    decimal. *)
Theorem scenario_A_values :
  let s := scenario_A_read in
  let c := scenario_A_regulated in
  servo.run scenario_A 500 700 = servo.set_pid s c /\
  servo.input_difference s == -200 /\
  servo.input_range s == 1023 /\
  servo.input_ratio s == 823 # 2046 /\
  within 0.00005 (servo.input_ratio s) 0.4022 /\
  servo.input_mapped s == 24690 # 341 /\
  within 0.005 (servo.input_mapped s) 72.40 /\
  pid_controller.input c == servo.input_mapped s /\
  pid_controller.last_error c == 6000 # 341 /\
  within 0.005 (pid_controller.last_error c) 17.60 /\
  pid_controller.integrate c == pid_controller.last_error c /\
  pid_controller.derivate c == pid_controller.last_error c /\
  pid_controller.output c == 37350 # 341 /\
  within 0.005 (pid_controller.output c) 109.53 /\
  pid_controller.output c ==
    90 + 1 * pid_controller.last_error c + 0.01 * pid_controller.last_error c
    + 0.1 * pid_controller.last_error c /\
  0 <= pid_controller.output c /\ pid_controller.output c <= 180.
Proof.
  cbv zeta.
  repeat match goal with |- _ /\ _ => split end; by_evaluation_within.
Qed.

(** C4 fails as stated: the ratio is not 0.4007, the mapped input not
    72.13, the error, integral and derivative not 17.87 and the output
    not 109.84, not even up to ten units of the last decimal given. *)
Lemma scenario_A_spec_values_off :
  let s := scenario_A_read in
  let c := scenario_A_regulated in
  ~ within 0.001 (servo.input_ratio s) 0.4007 /\
  ~ within 0.1 (servo.input_mapped s) 72.13 /\
  ~ within 0.1 (pid_controller.last_error c) 17.87 /\
  ~ within 0.1 (pid_controller.integrate c) 17.87 /\
  ~ within 0.1 (pid_controller.derivate c) 17.87 /\
  ~ within 0.1 (pid_controller.output c) 109.84.
Proof.
  cbv zeta.
  split; [|split; [|split; [|split; [|split]]]]; by_evaluation_within.
Qed.

(** * Binary64: the claims that rounding, overflow or NaN decide *)

(** ** The comparisons of binary64 *)

Section Compare.

Local Open Scope float_scope.

(** Exchanging the sides of a comparison exchanges [Lt] and [Gt]. *)
Lemma SFcompare_exchange (x y : spec_float) :
  SFcompare y x = option_map CompOpp (SFcompare x y).
Proof.
  destruct x as [sx|sx| |sx mx ex], y as [sy|sy| |sy my ey]; cbn;
    try reflexivity;
    try (destruct sx; reflexivity); try (destruct sy; reflexivity);
    try (destruct sx, sy; reflexivity).
  pose proof (Pos.compare_cont_antisym mx my Eq) as M. cbn in M.
  destruct sx, sy; try reflexivity;
    rewrite (Z.compare_antisym ex ey);
    destruct (ex ?= ey)%Z; cbn; try reflexivity;
    rewrite <- M; destruct (Pos.compare_cont Eq mx my); reflexivity.
Qed.

Lemma is_nan_spec (x : float) :
  is_nan x = true <-> Prim2SF x = S754_nan.
Proof.
  unfold is_nan. rewrite FloatAxioms.eqb_spec. unfold SFeqb.
  destruct (Prim2SF x) as [s|s| |s m e]; cbn.
  - split; discriminate.
  - destruct s; split; discriminate.
  - split; reflexivity.
  - destruct s; rewrite Z.compare_refl, Pos.compare_cont_refl; cbn;
      split; discriminate.
Qed.

(** [x <= y] holds of no NaN. *)
Lemma leb_not_nan (x y : float) :
  (x <=? y) = true -> is_nan x = false /\ is_nan y = false.
Proof.
  rewrite FloatAxioms.leb_spec. unfold SFleb. intros H.
  split; apply Bool.not_true_iff_false; rewrite is_nan_spec; intros N;
    rewrite N in H; [cbn in H | destruct (Prim2SF x); cbn in H]; discriminate.
Qed.

(** A number that is not NaN is [<=] itself. *)
Lemma leb_refl (x : float) : is_nan x = false -> (x <=? x) = true.
Proof.
  intros N. apply Bool.not_true_iff_false in N. rewrite is_nan_spec in N.
  rewrite FloatAxioms.leb_spec. unfold SFleb.
  destruct (Prim2SF x) as [s|s| |s m e]; cbn; try reflexivity.
  - destruct s; reflexivity.
  - now contradiction N.
  - destruct s; rewrite Z.compare_refl, Pos.compare_cont_refl; reflexivity.
Qed.

(** When neither is NaN, [y <= x] is what [x < y] being false means. *)
Lemma ltb_false_leb (x y : float) :
  is_nan x = false -> is_nan y = false -> (x <? y) = false -> (y <=? x) = true.
Proof.
  intros Nx Ny. apply Bool.not_true_iff_false in Nx, Ny.
  rewrite is_nan_spec in Nx, Ny.
  rewrite FloatAxioms.ltb_spec, FloatAxioms.leb_spec. unfold SFltb, SFleb.
  rewrite (SFcompare_exchange (Prim2SF x) (Prim2SF y)).
  destruct (SFcompare (Prim2SF x) (Prim2SF y)) as [[ | | ]|] eqn:C; cbn;
    try reflexivity; try discriminate.
  intros _. destruct (Prim2SF x), (Prim2SF y); cbn in C;
    try discriminate; contradiction.
Qed.

End Compare.

(** ** The output of the controller: within the bounds, or NaN *)

Section Output_binary64.

Import binary64 binary64.pid_controller.
Local Open Scope float_scope.

(** [check_output] writes no field but [output]. *)
Lemma check_output_frame_binary64 (c : pid_controller.t) :
  let c' := check_output c in
  target c' = target c /\ input c' = input c /\ kp c' = kp c /\
  ki c' = ki c /\ kd c' = kd c /\ integrate c' = integrate c /\
  derivate c' = derivate c /\ last_error c' = last_error c /\
  output_min c' = output_min c /\ output_max c' = output_max c.
Proof.
  unfold check_output.
  destruct (output c <? output_min c); [|destruct (output c >? output_max c)];
    cbn; repeat split.
Qed.

(** With ordered bounds, [check_output] keeps a NaN and puts every
    other output between the bounds. *)
Lemma check_output_binary64 (c : pid_controller.t) :
  (output_min c <=? output_max c) = true ->
  is_nan (output (check_output c)) = is_nan (output c) /\
  (is_nan (output c) = false ->
   (output_min c <=? output (check_output c)) = true /\
   (output (check_output c) <=? output_max c) = true).
Proof.
  intros B. destruct (leb_not_nan _ _ B) as [Nl Nh].
  unfold check_output, gtb.
  destruct (output c <? output_min c) eqn:L;
    [|destruct (output_max c <? output c) eqn:H]; cbn.
  - assert (N : is_nan (output c) = false).
    { apply Bool.not_true_iff_false. rewrite is_nan_spec. intros N.
      rewrite FloatAxioms.ltb_spec in L. unfold SFltb in L. rewrite N in L. discriminate. }
    rewrite N, Nl. split; [reflexivity|]. intros _.
    split; [now apply leb_refl | exact B].
  - assert (N : is_nan (output c) = false).
    { apply Bool.not_true_iff_false. rewrite is_nan_spec. intros N.
      rewrite FloatAxioms.ltb_spec in H. unfold SFltb in H. rewrite N in H.
      destruct (Prim2SF (output_max c)); discriminate. }
    rewrite N, Nh. split; [reflexivity|]. intros _.
    split; [exact B | now apply leb_refl].
  - split; [reflexivity|]. intros N.
    split; now apply ltb_false_leb.
Qed.

Lemma regulate_bounds_binary64 (c : pid_controller.t) (x : float) :
  output_min (regulate c x) = output_min c /\
  output_max (regulate c x) = output_max c /\
  target (regulate c x) = target c.
Proof.
  unfold regulate. cbv zeta.
  match goal with |- context [check_output ?d] =>
    destruct (check_output_frame_binary64 d)
      as (T & _ & _ & _ & _ & _ & _ & _ & L & H)
  end.
  cbv zeta in *. rewrite T, L, H. repeat split.
Qed.

Lemma regulate_all_bounds_binary64 (inputs : list float) :
  forall c : pid_controller.t,
    output_min (regulate_all c inputs) = output_min c /\
    output_max (regulate_all c inputs) = output_max c.
Proof.
  induction inputs as [|x inputs IH]; intros c.
  - split; reflexivity.
  - change (regulate_all c (x :: inputs))
      with (regulate_all (regulate c x) inputs).
    destruct (IH (regulate c x)) as [L H].
    destruct (regulate_bounds_binary64 c x) as (L' & H' & _).
    split; [exact (eq_trans L L') | exact (eq_trans H H')].
Qed.

End Output_binary64.

(** C2, as the source has it.  In binary64, with
    [output_min <= output_max], after every call of a finite sequence of
    [regulate] calls, whatever the inputs, the output is NaN exactly when
    the sum [target + kp*error + ki*integral + kd*derivative] of that
    call is NaN, and lies between the two bounds otherwise; the bounds
    stay as configured.  The sequence is [inputs ++ [x]], [x] being the
    input of the call looked at. *)
Theorem output_in_bounds_unless_nan
    (c : binary64.pid_controller.t) (inputs : list float) (x : float) :
  PrimFloat.leb (binary64.pid_controller.output_min c)
                (binary64.pid_controller.output_max c) = true ->
  let before := binary64.pid_controller.regulate_all c inputs in
  let error := PrimFloat.sub (binary64.pid_controller.target before) x in
  let integral :=
    PrimFloat.add (binary64.pid_controller.integrate before) error in
  let derivative :=
    PrimFloat.sub error (binary64.pid_controller.last_error before) in
  let sum :=
    PrimFloat.add
      (PrimFloat.add
         (PrimFloat.add (binary64.pid_controller.target before)
            (PrimFloat.mul (binary64.pid_controller.kp before) error))
         (PrimFloat.mul (binary64.pid_controller.ki before) integral))
      (PrimFloat.mul (binary64.pid_controller.kd before) derivative) in
  let c' := binary64.pid_controller.regulate_all c (inputs ++ [x]) in
  binary64.pid_controller.output_min c' = binary64.pid_controller.output_min c /\
  binary64.pid_controller.output_max c' = binary64.pid_controller.output_max c /\
  PrimFloat.is_nan (binary64.pid_controller.output c') = PrimFloat.is_nan sum /\
  (PrimFloat.is_nan sum = false ->
   PrimFloat.leb (binary64.pid_controller.output_min c)
                 (binary64.pid_controller.output c') = true /\
   PrimFloat.leb (binary64.pid_controller.output c')
                 (binary64.pid_controller.output_max c) = true).
Proof.
  intros B before error integral derivative sum c'.
  destruct (regulate_all_bounds_binary64 (inputs ++ [x]) c) as [Lo Hi].
  fold c' in Lo, Hi. split; [exact Lo|]. split; [exact Hi|].
  destruct (regulate_all_bounds_binary64 inputs c) as [Lo' Hi'].
  fold before in Lo', Hi'.
  assert (S : c' = binary64.pid_controller.regulate before x).
  { unfold c', before, binary64.pid_controller.regulate_all.
    now rewrite fold_left_app. }
  rewrite S. unfold binary64.pid_controller.regulate. cbv zeta.
  match goal with |- context [binary64.pid_controller.check_output ?d] =>
    assert (Bd : PrimFloat.leb (binary64.pid_controller.output_min d)
                               (binary64.pid_controller.output_max d) = true)
      by (cbn; rewrite Lo', Hi'; exact B);
    destruct (check_output_binary64 d Bd) as [N I]
  end.
  cbn in N, I. rewrite Lo', Hi' in I.
  split; [exact N | exact I].
Qed.

(** Target 90 within [0,180], gains 1, 1/2 and 1/4; three calls, the
    last input driving the sum far above the upper bound. *)
Lemma output_in_bounds_unless_nan_witness :
  let c := binary64.pid_controller.new 90 0 180 1 0.5 0.25 in
  let c' := binary64.pid_controller.regulate_all c ([72; 250] ++ [-1000])%float in
  PrimFloat.leb 0 (binary64.pid_controller.output c') = true /\
  PrimFloat.leb (binary64.pid_controller.output c') 180 = true.
Proof.
  refine (proj2 (proj2 (proj2
            (output_in_bounds_unless_nan
               (binary64.pid_controller.new 90 0 180 1 0.5 0.25)
               [72; 250]%float (-1000)%float _))) _);
    vm_compute; reflexivity.
Defined.

(** C2 fails as stated.  Target 0, bounds [0,128], gains 1, 1/2 and 1/4,
    and the three finite inputs -2^1023, -2^1023 and 2^1023: the integral
    overflows to infinity at the second call, at the third the derivative
    overflows to minus infinity and the sum is NaN, which [check_output]
    leaves as it is: the output is neither at least 0 nor at most 128. *)
Lemma output_out_of_bounds_by_overflow :
  let c := binary64.pid_controller.new 0 0 128 1 0.5 0.25 in
  let c' := binary64.pid_controller.regulate_all c
              ([-0x1p1023; -0x1p1023] ++ [0x1p1023])%float in
  PrimFloat.leb (binary64.pid_controller.output_min c)
                (binary64.pid_controller.output_max c) = true /\
  PrimFloat.leb (binary64.pid_controller.output_min c')
                (binary64.pid_controller.output c') = false /\
  PrimFloat.leb (binary64.pid_controller.output c')
                (binary64.pid_controller.output_max c') = false /\
  PrimFloat.is_nan (binary64.pid_controller.output c') = true.
Proof. vm_compute. repeat split. Qed.

(** ** The sign of the difference and the side of the ratio *)












(** ** Operations of binary64 that do not round *)

Section Exact.

Local Open Scope Z_scope.

Lemma iter_pos_nat {A : Type} (f : A -> A) (p : positive) :
  forall x : A, SpecFloat.iter_pos f p x = Nat.iter (Pos.to_nat p) f x.
Proof.
  induction p as [p IH|p IH|]; intros x; cbn [SpecFloat.iter_pos].
  - rewrite !IH, Pos2Nat.inj_xI. cbn [Nat.mul]. rewrite Nat.add_0_r.
    rewrite Nat.iter_succ_r, Nat.iter_add. reflexivity.
  - rewrite !IH, Pos2Nat.inj_xO. cbn [Nat.mul]. rewrite Nat.add_0_r.
    rewrite Nat.iter_add. reflexivity.
  - reflexivity.
Qed.

Lemma Pos_iter_nat {A : Type} (f : A -> A) (p : positive) (x : A) :
  Pos.iter f x p = Nat.iter (Pos.to_nat p) f x.
Proof. apply Pos2Nat.inj_iter. Qed.

Lemma shr_1_iter (n : nat) (m : positive) :
  Nat.iter n shr_1
    {| shr_m := Zpos (Nat.iter n xO m); shr_r := false; shr_s := false |}
  = {| shr_m := Zpos m; shr_r := false; shr_s := false |}.
Proof.
  induction n as [|n IH]; [reflexivity|].
  rewrite Nat.iter_succ_r. cbn [Nat.iter shr_1 orb]. exact IH.
Qed.

Lemma digits2_pos_iter (n : nat) (m : positive) :
  Zpos (digits2_pos (Nat.iter n xO m)) = Zpos (digits2_pos m) + Z.of_nat n.
Proof.
  induction n as [|n IH]; [cbn; lia|].
  change (digits2_pos (Nat.iter (S n) xO m))
    with (Pos.succ (digits2_pos (Nat.iter n xO m))).
  rewrite Pos2Z.inj_succ, IH. lia.
Qed.


(** Rounding an integer that ends in [k] zero bits onto the grid of its
    leading bits is exact. *)
Lemma binary_round_aux_exact (s : bool) (m k : positive) (e : Z) :
  fexp prec emax (Zpos (digits2_pos m) + (e + Zpos k)) = e + Zpos k ->
  binary_round_aux prec emax s (Zpos (Pos.iter xO m k)) e loc_Exact
  = if e + Zpos k <=? emax - prec then S754_finite s m (e + Zpos k)
    else S754_infinity s.
Proof.
  intros C. unfold binary_round_aux, shr_fexp.
  cbn [Zdigits2 shr_record_of_loc].
  rewrite Pos_iter_nat, digits2_pos_iter, positive_nat_Z.
  replace (Zpos (digits2_pos m) + Zpos k + e)
    with (Zpos (digits2_pos m) + (e + Zpos k)) by lia.
  rewrite C.
  replace (e + Zpos k - e) with (Zpos k) by lia.
  cbn [shr]. rewrite iter_pos_nat, shr_1_iter.
  cbn [shr_m loc_of_shr_record round_nearest_even Zdigits2 shr_record_of_loc].
  rewrite C. rewrite Z.sub_diag. cbn [shr shr_m]. reflexivity.
Qed.


(** Rounding a number that is on the grid already changes nothing. *)
Lemma binary_round_aux_canonical (s : bool) (m : positive) (e : Z) :
  fexp prec emax (Zpos (digits2_pos m) + e) = e ->
  binary_round_aux prec emax s (Zpos m) e loc_Exact
  = if e <=? emax - prec then S754_finite s m e else S754_infinity s.
Proof.
  intros C. unfold binary_round_aux, shr_fexp.
  cbn [Zdigits2 shr_record_of_loc]. rewrite C, Z.sub_diag.
  cbn [shr shr_m loc_of_shr_record round_nearest_even Zdigits2
       shr_record_of_loc].
  rewrite C, Z.sub_diag. reflexivity.
Qed.

(** The constants 2 and 1/2 decode to [SF_two] and [SF_half]. *)

Lemma Prim2SF_two : Prim2SF 2%float = SF_two.
Proof. reflexivity. Qed.

Lemma Prim2SF_half : Prim2SF 0.5%float = SF_half.
Proof. reflexivity. Qed.

(** What [valid_binary] says of a finite number: it is normal (53
    bits) with an exponent from -1074 to 971, or subnormal (fewer bits)
    with the exponent -1074. *)
Lemma bounded_cases (m : positive) (e : Z) :
  bounded prec emax m e = true ->
  e <= 971 /\
  ((Zpos (digits2_pos m) = 53 /\ -1074 <= e) \/
   (Zpos (digits2_pos m) < 53 /\ e = -1074)).
Proof.
  unfold bounded, canonical_mantissa, fexp, SpecFloat.emin, prec, emax.
  intros B. apply andb_prop in B. destruct B as [C L].
  apply Z.eqb_eq in C. apply Z.leb_le in L.
  change (1024 - 53) with 971 in L. lia.
Qed.

(** Doubling a normal number adds 1 to its exponent, or overflows. *)
Lemma SFmul_two_normal (s : bool) (m : positive) (e : Z) :
  Zpos (digits2_pos m) = 53 -> -1074 <= e ->
  SF64mul (S754_finite s m e) SF_two
  = if e + 1 <=? 971 then S754_finite s m (e + 1) else S754_infinity s.
Proof.
  intros D E. unfold SF64mul, SF_two. cbn [SFmul].
  rewrite Bool.xorb_false_r.
  change (PosDef.Pos.mul m 4503599627370496) with (Pos.mul m 4503599627370496).
  rewrite Pos.mul_comm.
  change (Pos.mul 4503599627370496 m) with (Pos.iter xO m 52).
  rewrite binary_round_aux_exact.
  - replace (e + -51 + 52) with (e + 1) by lia. reflexivity.
  - rewrite D. unfold fexp, SpecFloat.emin, prec, emax. lia.
Qed.

(** Doubling a subnormal number doubles its mantissa. *)
Lemma SFmul_two_subnormal (s : bool) (m : positive) (e : Z) :
  Zpos (digits2_pos m) < 53 -> e = -1074 ->
  SF64mul (S754_finite s m e) SF_two = S754_finite s (xO m) e.
Proof.
  intros D ->. unfold SF64mul, SF_two. cbn [SFmul].
  rewrite Bool.xorb_false_r.
  change (PosDef.Pos.mul m 4503599627370496) with (Pos.mul m 4503599627370496).
  rewrite Pos.mul_comm.
  change (Pos.mul 4503599627370496 m) with (Pos.iter xO (xO m) 51).
  rewrite binary_round_aux_exact.
  - reflexivity.
  - change (digits2_pos m~0) with (Pos.succ (digits2_pos m)).
    rewrite Pos2Z.inj_succ. unfold fexp, SpecFloat.emin, prec, emax. lia.
Qed.

(** Halving the double of a number gives the number back. *)
Lemma SFmul_half_normal (s : bool) (m : positive) (e : Z) :
  Zpos (digits2_pos m) = 53 -> -1074 <= e -> e + 1 <= 971 ->
  SF64mul SF_half (S754_finite s m (e + 1)) = S754_finite s m e.
Proof.
  intros D E O. unfold SF64mul, SF_half. cbn [SFmul xorb].
  change (PosDef.Pos.mul 4503599627370496 m) with (Pos.iter xO m 52).
  rewrite binary_round_aux_exact.
  - replace (-53 + (e + 1) + 52) with e by lia.
    destruct (Z.leb_spec e (emax - prec)) as [_|G]; [reflexivity|].
    unfold emax, prec in G. lia.
  - rewrite D. unfold fexp, SpecFloat.emin, prec, emax. lia.
Qed.

Lemma SFmul_half_subnormal (s : bool) (m : positive) :
  Zpos (digits2_pos m) < 53 ->
  SF64mul SF_half (S754_finite s (xO m) (-1074)) = S754_finite s m (-1074).
Proof.
  intros D. unfold SF64mul, SF_half. cbn [SFmul xorb].
  change (PosDef.Pos.mul 4503599627370496 m~0) with (Pos.iter xO m 53).
  rewrite binary_round_aux_exact.
  - reflexivity.
  - unfold fexp, SpecFloat.emin, prec, emax. lia.
Qed.


Lemma div_eucl_exact (q b : Z) :
  b <> 0 -> Z.div_eucl (q * b) b = (q, 0).
Proof.
  intros N. destruct (Z.div_eucl (q * b) b) as [q' r'] eqn:E.
  assert (Q : q' = q * b / b) by (unfold Z.div; now rewrite E).
  assert (R : r' = (q * b) mod b) by (unfold Z.modulo; now rewrite E).
  rewrite Z.div_mul in Q by exact N. rewrite Z.mod_mul in R by exact N.
  now subst.
Qed.

(** Halving a normal number above the first normal binade takes 1 from
    its exponent. *)
Lemma SFdiv_two_normal (m : positive) (e : Z) :
  Zpos (digits2_pos m) = 53 -> -1073 <= e -> e <= 971 ->
  SF64div (S754_finite false m e) SF_two = S754_finite false m (e - 1).
Proof.
  intros D E O. unfold SF64div, SF_two. cbn [SFdiv xorb].
  unfold SFdiv_core_binary. cbn [Zdigits2]. rewrite D.
  change (Zpos (digits2_pos 4503599627370496)) with 53.
  destruct (Z.eq_dec e (-1073)) as [->|N].
  - change (-1073 - 1) with (-1074).
    change (Z.min (fexp prec emax (53 + -1073 - (53 + -51))) (-1073 - -51))
      with (-1074).
    change (-1073 - -51 - -1074) with 52.
    rewrite Z.shiftl_mul_pow2 by lia.
    change (2 ^ 52) with 4503599627370496.
    rewrite div_eucl_exact by discriminate.
    change (new_location 4503599627370496 0) with loc_Exact.
    rewrite binary_round_aux_canonical; [reflexivity|].
    rewrite D. reflexivity.
  - replace (Z.min (fexp prec emax (53 + e - (53 + -51))) (e - -51))
      with (e - 2) by (unfold fexp, SpecFloat.emin, prec, emax; lia).
    replace (e - -51 - (e - 2)) with 53 by lia.
    rewrite Z.shiftl_mul_pow2 by lia.
    replace (Zpos m * 2 ^ 53) with (Zpos (xO m) * 4503599627370496)
      by (change (2 ^ 53) with 9007199254740992; lia).
    rewrite div_eucl_exact by discriminate.
    change (new_location 4503599627370496 0) with loc_Exact.
    change (xO m) with (Pos.iter xO m 1).
    rewrite binary_round_aux_exact.
    + replace (e - 2 + 1) with (e - 1) by lia.
      destruct (Z.leb_spec (e - 1) (emax - prec)) as [_|G]; [reflexivity|].
      unfold emax, prec in G. lia.
    + rewrite D. unfold fexp, SpecFloat.emin, prec, emax. lia.
Qed.

(** A number over its double is one half. *)
Lemma SFdiv_half (m : positive) (e : Z) :
  SF64div (S754_finite false m (e - 1)) (S754_finite false m e) = SF_half.
Proof.
  unfold SF64div. cbn [SFdiv xorb].
  unfold SFdiv_core_binary. cbn [Zdigits2].
  replace (Zpos (digits2_pos m) + (e - 1) - (Zpos (digits2_pos m) + e))
    with (-1) by lia.
  replace (e - 1 - e) with (-1) by lia.
  change (Z.min (fexp prec emax (-1)) (-1)) with (-54).
  change (-1 - -54) with 53.
  rewrite Z.shiftl_mul_pow2 by lia.
  rewrite Z.mul_comm, div_eucl_exact by discriminate.
  replace (new_location (Zpos m) 0) with loc_Exact
    by (unfold new_location; destruct (Z.even (Zpos m)); reflexivity).
  reflexivity.
Qed.


(** Half of the double of a number is the number, when the double is
    finite. *)
Lemma SF_half_of_double (x : spec_float) :
  valid_binary x = true ->
  (exists z, SF64mul x SF_two = S754_zero z) \/
  (exists z m e, SF64mul x SF_two = S754_finite z m e) ->
  SF64mul SF_half (SF64mul x SF_two) = x.
Proof.
  intros V F. destruct x as [t|t| |t m e].
  - destruct t; reflexivity.
  - exfalso. destruct F as [[z F]|(z & m & e & F)]; discriminate F.
  - exfalso. destruct F as [[z F]|(z & m & e & F)]; discriminate F.
  - destruct (bounded_cases m e V) as (_ & [[D Lo]|[D Lo]]).
    + rewrite (SFmul_two_normal t m e D Lo) in *.
      destruct (Z.leb_spec (e + 1) 971) as [O|O].
      * now apply SFmul_half_normal.
      * exfalso. destruct F as [[z F]|(z & m' & e' & F)]; discriminate F.
    + rewrite (SFmul_two_subnormal t m e D Lo). subst e.
      now apply SFmul_half_subnormal.
Qed.

End Exact.

Section Decode.

Local Open Scope float_scope.

(** A finite [double] is a zero or a number with a valid mantissa and
    exponent. *)
Lemma is_finite_cases (x : float) :
  is_finite x = true ->
  (exists s, Prim2SF x = S754_zero s) \/
  (exists s m e, Prim2SF x = S754_finite s m e /\ bounded prec emax m e = true).
Proof.
  unfold is_finite, is_nan, is_infinity.
  rewrite !FloatAxioms.eqb_spec, abs_spec.
  change (Prim2SF infinity) with (S754_infinity false).
  pose proof (Prim2SF_valid x) as V.
  destruct (Prim2SF x) as [s|s| |s m e]; cbn; intros F.
  - left. now exists s.
  - rewrite Bool.orb_true_r in F. discriminate F.
  - discriminate F.
  - right. now exists s, m, e.
Qed.

(** Equal finite numbers have a zero for difference. *)
Lemma sub_equal_finite (l r : float) :
  (l =? r) = true -> is_finite l = true ->
  exists z, Prim2SF (l - r) = S754_zero z.
Proof.
  intros E F. rewrite sub_spec. rewrite FloatAxioms.eqb_spec in E.
  unfold SFeqb in E.
  destruct (is_finite_cases l F) as [[s L]|(s & m & e & L & _)]; rewrite L in *.
  - destruct (Prim2SF r) as [s'|s'| |s' m' e']; cbn in E; try discriminate E.
    + destruct s, s'; cbn; eauto.
    + destruct s'; discriminate E.
    + destruct s'; discriminate E.
  - destruct (Prim2SF r) as [s'|s'| |s' m' e']; cbn in E; try discriminate E.
    + destruct s; discriminate E.
    + destruct s'; discriminate E.
    + assert (S : s' = s /\ e' = e /\ m' = m).
      { destruct s, s'; try discriminate E;
          destruct (Z.compare_spec e e') as [Q|Q|Q]; try discriminate E;
          destruct (Pos.compare_cont Eq m m') eqn:C; try discriminate E;
          apply Pos.compare_eq in C; subst; repeat split. }
      destruct S as (-> & -> & ->).
      exists false. unfold SF64sub. cbn [SFsub]. rewrite Z.sub_diag.
      reflexivity.
Qed.

(** A finite range of at least 2^-1021 is a positive normal number
    above the first normal binade. *)
Lemma range_decode (g : float) :
  (0x1p-1021 <=? g) = true -> is_finite g = true ->
  exists m e,
    Prim2SF g = S754_finite false m e /\
    Zpos (digits2_pos m) = 53%Z /\ (-1073 <= e)%Z /\ (e <= 971)%Z.
Proof.
  intros L F. rewrite FloatAxioms.leb_spec in L. unfold SFleb in L.
  change (Prim2SF 0x1p-1021) with (S754_finite false 4503599627370496 (-1073))
    in L.
  destruct (is_finite_cases g F) as [[s G]|(s & m & e & G & B)]; rewrite G in L.
  - discriminate L.
  - unfold SFcompare in L. destruct s; [discriminate L|].
    exists m, e. split; [exact G|].
    destruct (bounded_cases m e B) as (O & C).
    revert L. destruct (Z.compare_spec (-1073) e) as [Q|Q|Q]; intros L;
      try discriminate L; lia.
Qed.

End Decode.


(** ** Balanced sensors *)

(** C3, as the source has it.  In binary64, when the two sensors hold
    equal finite values, the range [max - min] of the window (that of the
    left sensor) is finite and at least 2^-1021, and twice the target is
    finite, the ratio is 0.5 and the mapped input is the target, both
    exactly: none of the six operations rounds. *)
Theorem balanced_input_fixed_point_binary64 (s : binary64.servo.t) :
  PrimFloat.eqb (binary64.tof_sensor.val (binary64.servo.left_sensor s))
                (binary64.tof_sensor.val (binary64.servo.right_sensor s))
  = true ->
  PrimFloat.is_finite (binary64.tof_sensor.val (binary64.servo.left_sensor s))
  = true ->
  PrimFloat.leb 0x1p-1021%float (binary64.servo.input_range s) = true ->
  PrimFloat.is_finite (binary64.servo.input_range s) = true ->
  PrimFloat.is_finite (PrimFloat.mul (binary64.servo.target s) 2%float) = true ->
  binary64.servo.input_ratio s = 0.5%float /\
  binary64.servo.input_mapped s = binary64.servo.target s.
Proof.
  intros E F L G T.
  assert (R : binary64.servo.input_ratio s = 0.5%float).
  { apply Prim2SF_inj. unfold binary64.servo.input_ratio. cbv zeta.
    destruct (range_decode _ L G) as (m & e & Pg & D & Lo & Hi).
    destruct (sub_equal_finite _ _ E F) as [z Pd].
    rewrite !div_spec, add_spec.
    change (Prim2SF 2.0%float) with SF_two.
    unfold binary64.servo.input_difference. rewrite Pd, Pg.
    change (SF64add (S754_zero z) (S754_finite false m e))
      with (S754_finite false m e).
    rewrite SFdiv_two_normal by assumption.
    apply SFdiv_half. }
  split; [exact R|].
  apply Prim2SF_inj. unfold binary64.servo.input_mapped.
  rewrite R. rewrite !mul_spec.
  change (Prim2SF 0.5%float) with SF_half. change (Prim2SF 2%float) with SF_two.
  apply SF_half_of_double.
  - apply Prim2SF_valid.
  - rewrite <- (Prim2SF_two), <- mul_spec.
    destruct (is_finite_cases _ T) as [[z P]|(z & m & e & P & _)];
      rewrite P; [now left; exists z | now right; exists z, m, e].
Qed.

(** The window [0,1023], both sensors at 300, target 90. *)
Lemma balanced_input_fixed_point_binary64_witness :
  let s := binary64.servo.run (binary64.servo.new 90 0 180 0 1023 1 0.5 0.25)
             300 300 in
  binary64.servo.input_ratio s = 0.5%float /\
  binary64.servo.input_mapped s = 90%float.
Proof.
  apply (balanced_input_fixed_point_binary64
           (binary64.servo.run (binary64.servo.new 90 0 180 0 1023 1 0.5 0.25)
              300 300));
    vm_compute; reflexivity.
Defined.

(** C3 fails as stated, on two counts.  In the window [0, 2^-1074],
    with both sensors at 0, the range is positive but half of it rounds
    to 0: the ratio is 0, not 0.5, and the mapped input is 0, not the
    target 90.  In the window [0,1023], with both sensors at 3 and the
    target 2^1023, the ratio is 0.5 but twice the target overflows: the
    mapped input is infinity. *)
Lemma balanced_input_lost_to_underflow_and_overflow :
  let s := binary64.servo.run
             (binary64.servo.new 90 0 180 0 0x1p-1074 1 0.5 0.25) 0 0 in
  let s' := binary64.servo.run
              (binary64.servo.new 0x1p1023 0 180 0 1023 1 0.5 0.25) 3 3 in
  (PrimFloat.eqb (binary64.tof_sensor.val (binary64.servo.left_sensor s))
                 (binary64.tof_sensor.val (binary64.servo.right_sensor s))
   = true /\
   PrimFloat.ltb (binary64.tof_sensor.min (binary64.servo.left_sensor s))
                 (binary64.tof_sensor.max (binary64.servo.left_sensor s))
   = true /\
   PrimFloat.eqb (binary64.servo.input_ratio s) 0.5%float = false /\
   PrimFloat.eqb (binary64.servo.input_mapped s) (binary64.servo.target s)
   = false) /\
  (PrimFloat.eqb (binary64.tof_sensor.val (binary64.servo.left_sensor s'))
                 (binary64.tof_sensor.val (binary64.servo.right_sensor s'))
   = true /\
   PrimFloat.ltb (binary64.tof_sensor.min (binary64.servo.left_sensor s'))
                 (binary64.tof_sensor.max (binary64.servo.left_sensor s'))
   = true /\
   PrimFloat.eqb (binary64.servo.input_mapped s') (binary64.servo.target s')
   = false).
Proof. vm_compute. repeat split. Qed.
